(** * Trade Analysis API: shallow embedding of [src/app.py]

    Python [str] values are modelled as Rocq [string]s read as Latin-1 code
    points; Python numbers (ints and floats) as exact rationals [Q].
    Exceptions are the [Raise] branch of a small result monad. *)

From Stdlib Require Import String Ascii List Bool Arith Lia ZArith QArith.
Import ListNotations.
Open Scope string_scope.
Open Scope nat_scope.

(* ------------------------------------------------------------------ *)
(** ** Python runtime fragment *)

Inductive exn :=
| ZeroDivisionError
| TypeError (msg : string)
| IndexError (msg : string)
| APIError (code : Z) (msg : string).

(** [str(e)] *)
Definition str_exn (e : exn) : string :=
  match e with
  | ZeroDivisionError => "division by zero"
  | TypeError m => m
  | IndexError m => m
  | APIError _ m => m
  end.

Inductive res (A : Type) : Type :=
| Ok (a : A)
| Raise (e : exn).
Arguments Ok {A} a.
Arguments Raise {A} e.

Definition bind {A B} (m : res A) (k : A -> res B) : res B :=
  match m with
  | Ok a => k a
  | Raise e => Raise e
  end.

Notation "'let*' x ':=' m 'in' k" := (bind m (fun x => k))
  (at level 200, x name, m at level 100, right associativity).

(** Python values an untyped dict lookup can produce for [pnl]. *)
Inductive pyval := PyNone | PyNum (q : Q).

(** [a > 0] on a Python value: [None > 0] raises. *)
Definition py_gt_zero (v : pyval) : res bool :=
  match v with
  | PyNone => Raise (TypeError "'>' not supported between instances of 'NoneType' and 'int'")
  | PyNum q => Ok (negb (Qle_bool q 0))
  end.

(** [x > y] on numbers *)
Definition Qgtb (x y : Q) : bool := negb (Qle_bool x y).

(** [sum(xs)]: start value [0], then [acc + x] left to right. *)
Fixpoint py_sum_from (acc : Q) (xs : list pyval) : res Q :=
  match xs with
  | [] => Ok acc
  | PyNone :: _ => Raise (TypeError "unsupported operand type(s) for +: 'int' and 'NoneType'")
  | PyNum q :: xs' => py_sum_from (acc + q)%Q xs'
  end.

Definition py_sum (xs : list pyval) : res Q := py_sum_from 0%Q xs.

(** [a / b] *)
Definition py_div (a b : Q) : res Q :=
  if Qeq_bool b 0 then Raise ZeroDivisionError else Ok (a / b)%Q.

(** [[x for x in xs if p(x)]] with a condition that may raise *)
Fixpoint py_filter {A} (p : A -> res bool) (xs : list A) : res (list A) :=
  match xs with
  | [] => Ok []
  | x :: xs' =>
      let* b := p x in
      let* r := py_filter p xs' in
      Ok (if b then x :: r else r)
  end.

(** Truthiness of a [str] *)
Definition str_truthy (s : string) : bool :=
  match s with EmptyString => false | _ => true end.

(** [c.isspace()] for code points 0..255 *)
Definition is_space (c : ascii) : bool :=
  let n := nat_of_ascii c in
  ((9 <=? n) && (n <=? 13)) || ((28 <=? n) && (n <=? 32)) || (n =? 133) || (n =? 160).

Fixpoint lstrip_list (l : list ascii) : list ascii :=
  match l with
  | [] => []
  | c :: l' => if is_space c then lstrip_list l' else l
  end.

(** [s.strip()] *)
Definition py_strip (s : string) : string :=
  string_of_list_ascii
    (rev (lstrip_list (rev (lstrip_list (list_ascii_of_string s))))).

(** [c.lower()] for code points 0..255 (A-Z and the Latin-1 capitals) *)
Definition lower_char (c : ascii) : ascii :=
  let n := nat_of_ascii c in
  if ((65 <=? n) && (n <=? 90)) || ((192 <=? n) && (n <=? 222) && negb (n =? 215))
  then ascii_of_nat (n + 32) else c.

Fixpoint py_lower (s : string) : string :=
  match s with
  | EmptyString => EmptyString
  | String c s' => String (lower_char c) (py_lower s')
  end.

Fixpoint prefixb (p s : string) : bool :=
  match p, s with
  | EmptyString, _ => true
  | String _ _, EmptyString => false
  | String a p', String b s' => Ascii.eqb a b && prefixb p' s'
  end.

(** [p in s] *)
Fixpoint py_in (p s : string) : bool :=
  prefixb p s ||
  match s with
  | EmptyString => false
  | String _ s' => py_in p s'
  end.

(** [any(t in s for t in ts)] *)
Definition any_in (ts : list string) (s : string) : bool :=
  existsb (fun t => py_in t s) ts.

(** [sep.join(xs)] *)
Definition py_join (sep : string) (xs : list string) : string := String.concat sep xs.

(** [str(n)] for a non-negative int *)
Fixpoint digits_aux (fuel n : nat) (acc : string) : string :=
  match fuel with
  | O => acc
  | S f =>
      let acc' := String (ascii_of_nat (48 + n mod 10)) acc in
      if n <? 10 then acc' else digits_aux f (n / 10) acc'
  end.

Definition py_str_nat (n : nat) : string := digits_aux (S n) n "".

(** [list(set(xs))]: the distinct elements.  Python's iteration order over a
    set is unspecified; this model keeps first occurrences, and nothing below
    depends on the order. *)
Fixpoint dedup (xs : list string) : list string :=
  match xs with
  | [] => []
  | x :: xs' => x :: filter (fun y => negb (String.eqb y x)) (dedup xs')
  end.

(* ------------------------------------------------------------------ *)
(** ** Data model *)

(** The [pnl] key of a row: absent, present with SQL [NULL], or a number. *)
Inductive pnl_field := PnlMissing | PnlNull | PnlNum (q : Q).

(** A row of the [trades] table as a Python dict.  [trade_type] and [notes]
    are [None] when the key is absent or the value is [NULL]. *)
Record trade := mk_trade {
  pnl : pnl_field;
  trade_type : option string;
  notes : option string
}.

Record TradeAnalysisResult := mk_result {
  win_rate : Q;
  avg_profit_loss : Q;
  strategies : list string;
  strengths : list string;
  weaknesses : list string;
  suggestions : list string
}.

(** [trade.get('pnl', 0)] *)
Definition get_pnl (t : trade) : pyval :=
  match pnl t with
  | PnlMissing => PyNum 0
  | PnlNull => PyNone
  | PnlNum q => PyNum q
  end.

(** [trade.get('trade_type')] is truthy *)
Definition trade_type_truthy (t : trade) : bool :=
  match trade_type t with Some s => str_truthy s | None => false end.

(** [trade.get('trade_type', '')] (only used on rows where it is truthy) *)
Definition get_trade_type (t : trade) : string :=
  match trade_type t with Some s => s | None => "" end.

Definition notes_truthy (t : trade) : bool :=
  match notes t with Some s => str_truthy s | None => false end.

Definition get_notes (t : trade) : string :=
  match notes t with Some s => s | None => "" end.

(* ------------------------------------------------------------------ *)
(** ** [analyze_trades] *)

Definition msg_onboarding := "Start recording your trades to get personalized analysis.".
Definition msg_above := "Above 50% win rate".
Definition msg_below := "Below 50% win rate".
Definition msg_focus_win := "Focus on improving your win rate by reviewing losing trades".
Definition msg_pos_pnl := "Positive average P&L".
Definition msg_neg_pnl := "Negative average P&L".
Definition msg_work_avg := "Work on improving your average profit per trade".
Definition msg_diverse (n : nat) :=
  "Diverse trading approaches (" ++ py_str_nat n ++ " different strategies)".
Definition msg_explore := "Consider exploring more trading strategies to diversify your approach".
Definition msg_emotional := "Emotional trading noted in multiple trades".
Definition msg_discipline := "Work on emotional discipline during trading".
Definition msg_planning := "Evidence of trade planning in notes".

Definition empty_result : TradeAnalysisResult :=
  mk_result 0%Q 0%Q [] [] [] [msg_onboarding].

(** [len(xs)] as a number *)
Definition py_len {A} (xs : list A) : Q := inject_Z (Z.of_nat (length xs)).

(** [strategies = list(set(trade.get('trade_type', '').strip()
                        for trade in trades if trade.get('trade_type')))] *)
Definition strategies_of (trades : list trade) : list string :=
  dedup (map (fun t => py_strip (get_trade_type t)) (filter trade_type_truthy trades)).

(** [all_notes = " ".join([trade.get('notes', '') for trade in trades
                            if trade.get('notes')])] *)
Definition all_notes_of (trades : list trade) : string :=
  py_join " " (map get_notes (filter notes_truthy trades)).

Definition emotion_hit (all_notes : string) : bool :=
  py_in "emotion" (py_lower all_notes) || py_in "fear" (py_lower all_notes)
  || py_in "greed" (py_lower all_notes).

Definition plan_hit (all_notes : string) : bool :=
  py_in "plan" (py_lower all_notes).

Definition analyze_trades (trades : list trade) : res TradeAnalysisResult :=
  match trades with
  | [] => Ok empty_result
  | _ :: _ =>
      let* profitable_trades := py_filter (fun t => py_gt_zero (get_pnl t)) trades in
      let* win_rate :=
        match trades with
         | [] => Ok 0%Q
         | _ => py_div (py_len profitable_trades) (py_len trades)
         end in
      let* total_pnl := py_sum (map get_pnl trades) in
      let* avg_pnl := match trades with
         | [] => Ok 0%Q
         | _ => py_div total_pnl (py_len trades)
         end in
      let strategies := strategies_of trades in
      (* strengths, weaknesses, suggestions = [], [], [] *)
      let '(st1, we1, su1) :=
        if Qgtb win_rate (1 # 2)
        then ([msg_above], [], [])
        else ([], [msg_below], [msg_focus_win]) in
      let '(st2, we2, su2) :=
        if Qgtb avg_pnl 0
        then ((st1 ++ [msg_pos_pnl])%list, we1, su1)
        else (st1, (we1 ++ [msg_neg_pnl])%list, (su1 ++ [msg_work_avg])%list) in
      let '(st3, we3, su3) :=
        if 2 <? length strategies
        then ((st2 ++ [msg_diverse (length strategies)])%list, we2, su2)
        else (st2, we2, (su2 ++ [msg_explore])%list) in
      let all_notes := all_notes_of trades in
      let '(st4, we4, su4) :=
        if str_truthy all_notes then
          let '(a, b, c) :=
            if emotion_hit all_notes
            then (st3, (we3 ++ [msg_emotional])%list, (su3 ++ [msg_discipline])%list)
            else (st3, we3, su3) in
          if plan_hit all_notes then ((a ++ [msg_planning])%list, b, c) else (a, b, c)
        else (st3, we3, su3) in
      Ok (mk_result win_rate avg_pnl strategies st4 we4 su4)
  end.

(* ------------------------------------------------------------------ *)
(** ** [generate_coach_response] *)

(** [xs[i]] *)
Definition py_index (xs : list string) (i : nat) : res string :=
  match nth_error xs i with
  | Some x => Ok x
  | None => Raise (IndexError "list index out of range")
  end.

(** [random.choice(seq)]: [seq[_randbelow(len(seq))]], with the random source
    injected as the number [r] that [_randbelow] reduces modulo [len(seq)]. *)
Definition random_choice (seq : list string) (r : nat) : res string :=
  match seq with
  | [] => Raise (IndexError "Cannot choose from an empty sequence")
  | _ => py_index seq (r mod length seq)
  end.

Inductive category := Cat_win_rate | Cat_improvement | Cat_strengths | Cat_default.

Definition kw_win_rate := ["win rate"; "winning"; "success rate"].
Definition kw_improvement := ["improve"; "better"; "enhance"; "increase"; "boost"].
Definition kw_strengths := ["strength"; "good at"; "excel"; "positive"].

(** [category = "default"; if any(...): ... elif ...] *)
Definition classify (user_message : string) : category :=
  if any_in kw_win_rate (py_lower user_message) then Cat_win_rate
  else if any_in kw_improvement (py_lower user_message) then Cat_improvement
  else if any_in kw_strengths (py_lower user_message) then Cat_strengths
  else Cat_default.

(** The [responses] dict. *)
Record responses := mk_responses {
  r_win_rate : list string;
  r_improvement : list string;
  r_strengths : list string;
  r_default : list string
}.

Definition responses_at (rs : responses) (c : category) : list string :=
  match c with
  | Cat_win_rate => r_win_rate rs
  | Cat_improvement => r_improvement rs
  | Cat_strengths => r_strengths rs
  | Cat_default => r_default rs
  end.

Section CoachResponse.
(** Float formatting [f"{x:.1%}"] and [f"{x:.2f}"]: any rendering. *)
Variable fmt_pct1 : Q -> string.
Variable fmt_2f : Q -> string.

Definition win_rate_templates (ta : TradeAnalysisResult) : list string :=
  let wr := fmt_pct1 (win_rate ta) in
  [ "Your win rate is " ++ wr ++ ". " ++
    (if Qgtb (win_rate ta) (1 # 2) then "This is above the 50% mark, which is great! "
     else "This is below 50%, but remember that with a good risk-reward ratio, you can still be profitable. ") ++
    "Focus on the quality of your setups rather than quantity.";
    "Based on your trading history, you're winning " ++ wr ++ " of the time. " ++
    "Remember that even the best traders don't win every trade. " ++
    "The key is to ensure your winners are bigger than your losers." ].

Definition improvement_templates (ta : TradeAnalysisResult) : list string :=
  let j2 := py_join ", " (firstn 2 (suggestions ta)) in
  [ "To improve your trading results, I recommend focusing on these key areas: " ++ j2 ++ ". " ++
    "Keep a detailed trading journal and review it weekly to identify patterns.";
    "The path to improvement starts with consistency and discipline. " ++
    "Based on your trades, I suggest working on: " ++ j2 ++ ". " ++
    "Consider setting specific, measurable goals for each trading session." ].

Definition strengths_templates (ta : TradeAnalysisResult) : list string :=
  let js := py_join ", " (strengths ta) in
  [ "Your strengths as a trader include: " ++ js ++ ". " ++
    "Continue to build on these while addressing your areas for improvement.";
    "You're doing well with " ++ js ++ ". " ++
    "These are solid foundations to build upon. Consider focusing next on your risk management approach." ].

(** The second default template evaluates
    [suggestions[0] if suggestions else '...'], the one place that indexes. *)
Definition default_templates (ta : TradeAnalysisResult) : res (list string) :=
  let wr := fmt_pct1 (win_rate ta) in
  let j2 := py_join ", " (firstn 2 (suggestions ta)) in
  let* focus :=
    (match suggestions ta with
     | [] => Ok "maintaining a trading journal"
     | _ => py_index (suggestions ta) 0
     end) in
  Ok [ "Looking at your trading data with a win rate of " ++ wr ++
       " and average P&L of $" ++ fmt_2f (avg_profit_loss ta) ++ ", " ++
       "I recommend focusing on: " ++ j2 ++ ". " ++
       "Would you like more specific advice on a particular aspect of your trading?";
       "Based on your trading history, I see both strengths and areas for improvement. " ++
       "Your win rate is " ++ wr ++ ", and I'd suggest focusing on " ++ focus ++ ". " ++
       "What specific aspect of your trading would you like to discuss?" ].

(** The dict literal is evaluated in full before the lookup. *)
Definition build_responses (ta : TradeAnalysisResult) : res responses :=
  let w := win_rate_templates ta in
  let i := improvement_templates ta in
  let s := strengths_templates ta in
  let* d := default_templates ta in
  Ok (mk_responses w i s d).

Definition generate_coach_response (user_message : string) (ta : TradeAnalysisResult)
    (r : nat) : res string :=
  let* rs := build_responses ta in
  random_choice (responses_at rs (classify user_message)) r.
End CoachResponse.


(* ------------------------------------------------------------------ *)
(** ** Supabase client and HTTP endpoints *)

(** [os.environ.get] *)
Definition environ := string -> option string.

Definition opt_str_truthy (o : option string) : bool :=
  match o with Some s => str_truthy s | None => false end.

Record client := mk_client { client_url : string; client_key : string }.

(** An HTTP outcome: a response body, or an [HTTPException(status_code, detail)]. *)
Inductive http_res (A : Type) : Type :=
| HOk (a : A)
| HErr (status_code : Z) (detail : string).
Arguments HOk {A} a.
Arguments HErr {A} status_code detail.

Definition get_supabase_client (env : environ) : http_res client :=
  let supabase_url := env "SUPABASE_URL" in
  let supabase_key := env "SUPABASE_SERVICE_KEY" in
  if negb (opt_str_truthy supabase_url) || negb (opt_str_truthy supabase_key)
  then HErr 500%Z "Missing Supabase credentials"
  else
    (* [supabase.create_client(supabase_url, supabase_key)] *)
    HOk (mk_client (match supabase_url with Some u => u | None => "" end)
                   (match supabase_key with Some k => k | None => "" end)).

(** What the remote [trades] table answers to a query filtered on [user_id]. *)
Inductive fetch_result :=
| FetchOk (rows : list trade)
| FetchErr (status : Z) (message : string).

Definition store := string -> fetch_result.

(** Observable steps of a request. *)
Inductive event :=
| EvFetch (url : string) (user_id : string)
| EvAnalyze
| EvCoach.

(** [supabase.table("trades").select("*").eq("user_id", uid).execute().data];
    a non-success answer raises. *)
Definition execute_query (db : store) (uid : string) : res (list trade) :=
  match db uid with
  | FetchOk rows => Ok rows
  | FetchErr code m => Raise (APIError code m)
  end.

(** [get_trade_analysis(user_id, supabase)]: the handler body, its
    [try ... except Exception as e: raise HTTPException(500, ...)]. *)
Definition get_trade_analysis (db : store) (user_id : string) (c : client)
    : http_res TradeAnalysisResult * list event :=
  let fail e := HErr 500%Z ("Error analyzing trades: " ++ str_exn e) in
  let log0 := [EvFetch (client_url c) user_id] in
  match execute_query db user_id with
  | Raise e => (fail e, log0)
  | Ok trades =>
      match analyze_trades trades with
      | Raise e => (fail e, (log0 ++ [EvAnalyze])%list)
      | Ok analysis => (HOk analysis, (log0 ++ [EvAnalyze])%list)
      end
  end.

Record message := mk_message { role : string; content : string }.
Record ChatRequest := mk_chat_request { messages : list message; user_id : string }.

(** The JSON body: ["response"], and ["analysis"] when present. *)
Record chat_reply := mk_chat_reply {
  reply_response : string;
  reply_analysis : option TradeAnalysisResult
}.

(** [for msg in reversed(request.messages): if msg.role == "user": ... break] *)
Definition last_user_message (msgs : list message) : option string :=
  match find (fun m => String.eqb (role m) "user") (rev msgs) with
  | Some m => Some (content m)
  | None => None
  end.

Definition msg_no_message := "I didn't receive a message to respond to.".

Definition chat (fmt_pct1 fmt_2f : Q -> string) (r : nat) (db : store)
    (request : ChatRequest) (c : client) : http_res chat_reply * list event :=
  let fail e := HErr 500%Z ("Error processing chat: " ++ str_exn e) in
  let no_message := (HOk (mk_chat_reply msg_no_message None), []) in
  match last_user_message (messages request) with
  | None => no_message
  | Some last_message =>
      if negb (str_truthy last_message) then no_message else
      let log0 := [EvFetch (client_url c) (user_id request)] in
      match execute_query db (user_id request) with
      | Raise e => (fail e, log0)
      | Ok trades =>
          let log1 := (log0 ++ [EvAnalyze])%list in
          match analyze_trades trades with
          | Raise e => (fail e, log1)
          | Ok analysis =>
              let log2 := (log1 ++ [EvCoach])%list in
              match generate_coach_response fmt_pct1 fmt_2f last_message analysis r with
              | Raise e => (fail e, log2)
              | Ok coach_response =>
                  (HOk (mk_chat_reply coach_response (Some analysis)), log2)
              end
          end
      end
  end.

(** FastAPI resolves [Depends(get_supabase_client)] before running a handler;
    an [HTTPException] it raises is the endpoint's answer. *)
Definition get_trade_analysis_endpoint (env : environ) (db : store) (user_id : string)
    : http_res TradeAnalysisResult * list event :=
  match get_supabase_client env with
  | HErr s d => (HErr s d, [])
  | HOk c => get_trade_analysis db user_id c
  end.

Definition chat_endpoint (fmt_pct1 fmt_2f : Q -> string) (r : nat) (env : environ)
    (db : store) (request : ChatRequest) : http_res chat_reply * list event :=
  match get_supabase_client env with
  | HErr s d => (HErr s d, [])
  | HOk c => chat fmt_pct1 fmt_2f r db request c
  end.

(** [get_user_id(request)], with [auth_header] the [Authorization] header
    ([request.headers.get("Authorization")]). *)
Definition get_user_id (auth_header : option string) : http_res (option string) :=
  match auth_header with
  | Some h =>
      if negb (str_truthy h) || negb (prefixb "Bearer " h)
      then HErr 401%Z "Invalid authentication credentials"
      else HOk None
  | None => HErr 401%Z "Invalid authentication credentials"
  end.

Definition tr (p : pnl_field) (ty : option string) (n : option string) : trade :=
  mk_trade p ty n.


(* ------------------------------------------------------------------ *)
(** ** Readings of the specification used in the statements *)

(** Numeric value of a [pnl] key that is not [NULL] (missing reads as 0). *)
Definition pnl_value (t : trade) : Q :=
  match pnl t with PnlNum q => q | _ => 0%Q end.

Definition pnl_not_null (t : trade) : bool :=
  match pnl t with PnlNull => false | _ => true end.

(** Records with [pnl > 0], and the left-to-right sum of [pnl]. *)
Definition count_pos (ts : list trade) : nat :=
  length (filter (fun t => Qgtb (pnl_value t) 0) ts).

Definition sum_pnl (ts : list trade) : Q :=
  fold_left (fun acc t => (acc + pnl_value t)%Q) ts 0%Q.

(** The rule lists, each rule appending in the order win rate, average P&L,
    strategy count, notes. *)
Definition expected_strengths (wr avg : Q) (n : nat) (all_notes : string) : list string :=
  ((if Qgtb wr (1 # 2) then [msg_above] else []) ++
   (if Qgtb avg 0 then [msg_pos_pnl] else []) ++
   (if 2 <? n then [msg_diverse n] else []) ++
   (if plan_hit all_notes then [msg_planning] else []))%list.

Definition expected_weaknesses (wr avg : Q) (all_notes : string) : list string :=
  ((if Qgtb wr (1 # 2) then [] else [msg_below]) ++
   (if Qgtb avg 0 then [] else [msg_neg_pnl]) ++
   (if emotion_hit all_notes then [msg_emotional] else []))%list.

Definition expected_suggestions (wr avg : Q) (n : nat) (all_notes : string) : list string :=
  ((if Qgtb wr (1 # 2) then [] else [msg_focus_win]) ++
   (if Qgtb avg 0 then [] else [msg_work_avg]) ++
   (if 2 <? n then [] else [msg_explore]) ++
   (if emotion_hit all_notes then [msg_discipline] else []))%list.

(* ------------------------------------------------------------------ *)
(** ** Lemmas on [analyze_trades] *)

Lemma py_filter_pos (ts : list trade) :
  forallb pnl_not_null ts = true ->
  py_filter (fun t => py_gt_zero (get_pnl t)) ts
  = Ok (filter (fun t => Qgtb (pnl_value t) 0) ts).
Proof.
  induction ts as [|t ts IH]; simpl; [reflexivity|].
  intros H; apply andb_prop in H as [H1 H2].
  destruct t as [[| |q] ty n]; simpl in *; try discriminate;
    rewrite (IH H2); reflexivity.
Qed.

Lemma py_sum_from_ok (ts : list trade) (acc : Q) :
  forallb pnl_not_null ts = true ->
  py_sum_from acc (map get_pnl ts)
  = Ok (fold_left (fun a t => (a + pnl_value t)%Q) ts acc).
Proof.
  revert acc; induction ts as [|t ts IH]; intros acc H; simpl; [reflexivity|].
  simpl in H; apply andb_prop in H as [H1 H2].
  destruct t as [[| |q] ty n]; simpl in *; try discriminate; apply IH; exact H2.
Qed.

Lemma py_len_cons_nonzero {A} (x : A) (xs : list A) :
  Qeq_bool (py_len (x :: xs)) 0 = false.
Proof.
  destruct (Qeq_bool (py_len (x :: xs)) 0) eqn:E; [|reflexivity].
  apply Qeq_bool_iff in E. unfold py_len, Qeq in E. simpl in E. lia.
Qed.

Lemma py_div_cons {A} (a : Q) (x : A) (xs : list A) :
  py_div a (py_len (x :: xs)) = Ok (a / py_len (x :: xs))%Q.
Proof. unfold py_div. rewrite py_len_cons_nonzero. reflexivity. Qed.

Lemma str_truthy_false (s : string) : str_truthy s = false -> s = "".
Proof. destruct s; [reflexivity | discriminate]. Qed.

(** On a non-empty input, a result of [analyze_trades] has its numbers
    computed by the divisions and its lists built by the rules in order. *)
Lemma analyze_cons_shape (t : trade) (ts : list trade) (r : TradeAnalysisResult) :
  analyze_trades (t :: ts) = Ok r ->
  exists profitable total,
    py_filter (fun t => py_gt_zero (get_pnl t)) (t :: ts) = Ok profitable /\
    py_sum (map get_pnl (t :: ts)) = Ok total /\
    win_rate r = (py_len profitable / py_len (t :: ts))%Q /\
    avg_profit_loss r = (total / py_len (t :: ts))%Q /\
    strategies r = strategies_of (t :: ts) /\
    strengths r = expected_strengths (win_rate r) (avg_profit_loss r)
                    (length (strategies r)) (all_notes_of (t :: ts)) /\
    weaknesses r = expected_weaknesses (win_rate r) (avg_profit_loss r)
                     (all_notes_of (t :: ts)) /\
    suggestions r = expected_suggestions (win_rate r) (avg_profit_loss r)
                      (length (strategies r)) (all_notes_of (t :: ts)).
Proof.
  unfold analyze_trades.
  destruct (py_filter _ (t :: ts)) as [profitable|e] eqn:Hp; cbn [bind]; [|discriminate].
  rewrite py_div_cons; cbn [bind].
  destruct (py_sum (map get_pnl (t :: ts))) as [total|e] eqn:Hs; cbn [bind]; [|discriminate].
  rewrite py_div_cons; cbn [bind].
  intros H. exists profitable, total. split; [reflexivity|]. split; [reflexivity|].
  set (wr := (py_len profitable / py_len (t :: ts))%Q) in *.
  set (avg := (total / py_len (t :: ts))%Q) in *.
  set (st := strategies_of (t :: ts)) in *.
  set (notes := all_notes_of (t :: ts)) in *.
  unfold expected_strengths, expected_weaknesses, expected_suggestions.
  destruct (str_truthy notes) eqn:Hn.
  - destruct (Qgtb wr (1 # 2)) eqn:E1; destruct (Qgtb avg 0) eqn:E2;
    destruct (2 <? length st) eqn:E3; destruct (emotion_hit notes) eqn:E4;
    destruct (plan_hit notes) eqn:E5;
    injection H as <-; cbn [win_rate avg_profit_loss strategies strengths weaknesses suggestions];
    rewrite ?E1, ?E2, ?E3, ?E4, ?E5; repeat split; reflexivity.
  - assert (E4 : emotion_hit notes = false)
      by (apply str_truthy_false in Hn; rewrite Hn; reflexivity).
    assert (E5 : plan_hit notes = false)
      by (apply str_truthy_false in Hn; rewrite Hn; reflexivity).
    destruct (Qgtb wr (1 # 2)) eqn:E1; destruct (Qgtb avg 0) eqn:E2;
    destruct (2 <? length st) eqn:E3;
    injection H as <-; cbn [win_rate avg_profit_loss strategies strengths weaknesses suggestions];
    rewrite ?E1, ?E2, ?E3, E4, E5; repeat split; reflexivity.
Qed.

(** With no [NULL] [pnl], [analyze_trades] of a non-empty input succeeds. *)
Lemma analyze_cons_total (t : trade) (ts : list trade) :
  forallb pnl_not_null (t :: ts) = true ->
  exists r, analyze_trades (t :: ts) = Ok r.
Proof.
  intros H. unfold analyze_trades.
  rewrite (py_filter_pos _ H); cbn [bind]. rewrite py_div_cons; cbn [bind].
  unfold py_sum. rewrite (py_sum_from_ok _ _ H); cbn [bind].
  rewrite py_div_cons; cbn [bind].
  destruct (Qgtb _ (1 # 2)); destruct (Qgtb _ 0); destruct (2 <? _);
    destruct (str_truthy _); try destruct (emotion_hit _); try destruct (plan_hit _);
    eexists; reflexivity.
Qed.

Lemma py_filter_raise (ts : list trade) (e : exn) :
  py_filter (fun t => py_gt_zero (get_pnl t)) ts = Raise e -> exists m, e = TypeError m.
Proof.
  induction ts as [|t ts IH]; simpl; [discriminate|].
  destruct (py_gt_zero (get_pnl t)) eqn:Hg; cbn [bind].
  - destruct (py_filter _ ts); cbn [bind]; [discriminate | auto].
  - destruct (get_pnl t); simpl in Hg; [|discriminate].
    injection Hg as <-. intros H; injection H as <-. eexists; reflexivity.
Qed.

Lemma py_sum_from_raise (xs : list pyval) (acc : Q) (e : exn) :
  py_sum_from acc xs = Raise e -> exists m, e = TypeError m.
Proof.
  revert acc; induction xs as [|[|q] xs IH]; intros acc; simpl.
  - discriminate.
  - intros H; injection H as <-. eexists; reflexivity.
  - apply IH.
Qed.

(** Every exception [analyze_trades] raises is a [TypeError]. *)
Lemma analyze_raise_type_error (ts : list trade) (e : exn) :
  analyze_trades ts = Raise e -> exists m, e = TypeError m.
Proof.
  destruct ts as [|t ts]; [discriminate|]. unfold analyze_trades.
  destruct (py_filter _ (t :: ts)) as [p|e'] eqn:Hp; cbn [bind].
  - rewrite py_div_cons; cbn [bind].
    destruct (py_sum (map get_pnl (t :: ts))) as [tot|e'] eqn:Hs; cbn [bind].
    + rewrite py_div_cons; cbn [bind].
      destruct (Qgtb _ (1 # 2)); destruct (Qgtb _ 0); destruct (2 <? _);
        destruct (str_truthy _); try destruct (emotion_hit _); try destruct (plan_hit _);
        discriminate.
    + intros H; injection H as <-. exact (py_sum_from_raise _ _ _ Hs).
  - intros H; injection H as <-. exact (py_filter_raise _ _ Hp).
Qed.

(* ------------------------------------------------------------------ *)
(** ** Claims on [analyze_trades] *)

(** C1: on an empty collection [analyze_trades] returns win rate 0.0,
    average P&L 0.0, empty strategies, strengths and weaknesses, and as
    suggestions exactly the one onboarding message. *)
Theorem analyze_trades_empty :
  analyze_trades [] = Ok (mk_result 0%Q 0%Q [] [] [] [msg_onboarding]) /\
  msg_onboarding = "Start recording your trades to get personalized analysis.".
Proof. split; reflexivity. Qed.

(** C2: on a non-empty collection (every [pnl] a number or absent),
    [analyze_trades] succeeds with win rate = #records with pnl > 0 / #records
    and average P&L = sum of pnl / #records, an absent pnl read as 0; on the
    trades with pnl 10, -5, 20 these are 2/3 and 25/3. *)
Theorem analyze_trades_rates :
  (forall ts : list trade,
     ts <> [] -> forallb pnl_not_null ts = true ->
     exists r, analyze_trades ts = Ok r /\
       win_rate r = (inject_Z (Z.of_nat (count_pos ts)) / inject_Z (Z.of_nat (length ts)))%Q /\
       avg_profit_loss r = (sum_pnl ts / inject_Z (Z.of_nat (length ts)))%Q) /\
  (exists r, analyze_trades [tr (PnlNum 10) None None; tr (PnlNum (-5)) None None;
                             tr (PnlNum 20) None None] = Ok r /\
     (win_rate r == 2 # 3)%Q /\ (avg_profit_loss r == 25 # 3)%Q).
Proof.
  split.
  - intros [|t ts] Hne Hnn; [congruence|].
    destruct (analyze_cons_total t ts Hnn) as [r Hr].
    exists r; split; [exact Hr|].
    destruct (analyze_cons_shape _ _ _ Hr) as (p & tot & Hp & Hs & Hw & Ha & _).
    rewrite (py_filter_pos _ Hnn) in Hp. injection Hp as <-.
    unfold py_sum in Hs. rewrite (py_sum_from_ok _ _ Hnn) in Hs. injection Hs as <-.
    split; assumption.
  - eexists; split; [vm_compute; reflexivity|]. split; reflexivity.
Qed.

Lemma analyze_trades_rates_witness :
  exists r, analyze_trades [tr (PnlNum 3) None None; tr PnlMissing None None] = Ok r /\
    win_rate r = (inject_Z 1 / inject_Z 2)%Q /\ avg_profit_loss r = ((0 + 3 + 0) / inject_Z 2)%Q.
Proof.
  apply (proj1 analyze_trades_rates); [discriminate | reflexivity].
Defined.

(** C8: [analyze_trades] never raises [ZeroDivisionError]: its divisions are
    only reached on a non-empty collection, whose length is not 0. *)
Theorem analyze_trades_no_zero_division :
  (forall ts : list trade, analyze_trades ts <> Raise ZeroDivisionError) /\
  (forall ts : list trade, ts <> [] -> Qeq_bool (py_len ts) 0 = false).
Proof.
  split.
  - intros ts H. destruct (analyze_raise_type_error _ _ H) as [m Hm]. discriminate.
  - intros [|t ts] Hne; [congruence | apply py_len_cons_nonzero].
Qed.

Lemma analyze_trades_no_zero_division_witness :
  Qeq_bool (py_len [tr PnlNull None None]) 0 = false.
Proof.
  apply (proj2 analyze_trades_no_zero_division). discriminate.
Defined.

Ltac unfold_msgs :=
  unfold msg_above, msg_below, msg_focus_win, msg_pos_pnl, msg_neg_pnl, msg_work_avg,
    msg_diverse, msg_explore, msg_emotional, msg_discipline, msg_planning in *.

(** Membership of one rule's message in a rule-built list is decided by that
    rule alone. *)
Ltac settle_rule_in :=
  unfold expected_strengths, expected_weaknesses, expected_suggestions;
  repeat match goal with |- context [if ?b then _ else _] => destruct b end;
  cbn [app In]; unfold_msgs; split; intro H;
  repeat match goal with H : _ \/ _ |- _ => destruct H as [H|H] end;
  first [ reflexivity | discriminate | contradiction | tauto ].

(** C3 (defect): [trade_type] is tested for truthiness before [strip()], so a
    whitespace-only [trade_type] puts the empty string into [strategies];
    the spec's own example (["scalp"; "scalp "; ""]) does give ["scalp"]. *)
Theorem analyze_trades_blank_strategy :
  (exists r, analyze_trades [tr PnlMissing (Some " ") None] = Ok r /\
             strategies r = [""] /\ In "" (strategies r)) /\
  (exists r, analyze_trades [tr PnlMissing (Some "scalp") None;
                             tr PnlMissing (Some "scalp ") None;
                             tr PnlMissing (Some "") None] = Ok r /\
             strategies r = ["scalp"]).
Proof.
  split.
  - eexists; split; [vm_compute; reflexivity|]. split; [reflexivity | left; reflexivity].
  - eexists; split; [vm_compute; reflexivity | reflexivity].
Qed.

(** C6 counterexample: the notes "complaint" do not contain "plan", so the
    planning strength is not added. *)
Lemma notes_complaint_no_plan :
  exists r, analyze_trades [tr (PnlNum 1) None (Some "complaint")] = Ok r /\
            ~ In msg_planning (strengths r).
Proof.
  eexists; split; [vm_compute; reflexivity|].
  cbn [strengths In]. unfold_msgs. intros H.
  repeat (destruct H as [H|H]; [discriminate|]). exact H.
Qed.

(** C6 (amended): on a non-empty collection, the emotional-trading weakness
    and the discipline suggestion are present exactly when the space-joined
    lower-cased notes contain "emotion", "fear" or "greed", and the planning
    strength exactly when they contain "plan" as a substring; the two rules
    are independent. *)
Theorem analyze_trades_notes_rules (ts : list trade) (r : TradeAnalysisResult) :
  ts <> [] -> analyze_trades ts = Ok r ->
  all_notes_of ts = py_join " " (map get_notes (filter notes_truthy ts)) /\
  (In msg_emotional (weaknesses r) <-> emotion_hit (all_notes_of ts) = true) /\
  (In msg_discipline (suggestions r) <-> emotion_hit (all_notes_of ts) = true) /\
  (In msg_planning (strengths r) <-> plan_hit (all_notes_of ts) = true).
Proof.
  destruct ts as [|t ts]; [congruence|]. intros _ Hr.
  destruct (analyze_cons_shape _ _ _ Hr) as (p & tot & _ & _ & _ & _ & _ & Hst & Hwe & Hsu).
  split; [reflexivity|].
  rewrite Hst, Hwe, Hsu.
  split; [|split]; settle_rule_in.
Qed.

Lemma analyze_trades_notes_rules_witness :
  exists r,
    analyze_trades [tr (PnlNum 1) None (Some "feeling greedy today");
                    tr (PnlNum 2) None (Some "Followed my PLAN")] = Ok r /\
    In msg_emotional (weaknesses r) /\ In msg_discipline (suggestions r) /\
    In msg_planning (strengths r).
Proof.
  eexists. split; [vm_compute; reflexivity|].
  destruct (analyze_trades_notes_rules
              [tr (PnlNum 1) None (Some "feeling greedy today");
               tr (PnlNum 2) None (Some "Followed my PLAN")] _
              ltac:(discriminate) ltac:(vm_compute; reflexivity))
    as (_ & He & Hd & Hp).
  split; [apply He; reflexivity|]. split; [apply Hd; reflexivity | apply Hp; reflexivity].
Defined.

(** C7: on a non-empty collection, strengths, weaknesses and suggestions are
    the concatenations, in the order win-rate rule, average-P&L rule,
    strategy-count rule, notes rules, of what each rule appends; in
    particular when both of the first two rules fail, "Below 50% win rate"
    comes before "Negative average P&L" in weaknesses. *)
Theorem analyze_trades_rule_order (ts : list trade) (r : TradeAnalysisResult) :
  ts <> [] -> analyze_trades ts = Ok r ->
  strengths r = expected_strengths (win_rate r) (avg_profit_loss r)
                  (length (strategies r)) (all_notes_of ts) /\
  weaknesses r = expected_weaknesses (win_rate r) (avg_profit_loss r) (all_notes_of ts) /\
  suggestions r = expected_suggestions (win_rate r) (avg_profit_loss r)
                    (length (strategies r)) (all_notes_of ts) /\
  (Qgtb (win_rate r) (1 # 2) = false -> Qgtb (avg_profit_loss r) 0 = false ->
   exists rest, weaknesses r = msg_below :: msg_neg_pnl :: rest).
Proof.
  destruct ts as [|t ts]; [congruence|]. intros _ Hr.
  destruct (analyze_cons_shape _ _ _ Hr) as (p & tot & _ & _ & _ & _ & _ & Hst & Hwe & Hsu).
  split; [exact Hst|]. split; [exact Hwe|]. split; [exact Hsu|].
  intros H1 H2. rewrite Hwe. unfold expected_weaknesses. rewrite H1, H2.
  eexists; reflexivity.
Qed.

Lemma analyze_trades_rule_order_witness :
  exists r, analyze_trades [tr (PnlNum (-1)) None (Some "fear")] = Ok r /\
    weaknesses r = [msg_below; msg_neg_pnl; msg_emotional] /\
    suggestions r = [msg_focus_win; msg_work_avg; msg_explore; msg_discipline].
Proof.
  eexists. split; [vm_compute; reflexivity|].
  destruct (analyze_trades_rule_order [tr (PnlNum (-1)) None (Some "fear")] _
              ltac:(discriminate) ltac:(vm_compute; reflexivity))
    as (_ & Hw & Hs & _).
  rewrite Hw, Hs. split; reflexivity.
Defined.

(* ------------------------------------------------------------------ *)
(** ** Lemmas on [generate_coach_response] *)

Lemma random_choice_in (seq : list string) (r : nat) :
  seq <> [] -> exists s, random_choice seq r = Ok s /\ In s seq.
Proof.
  intros Hne. unfold random_choice. destruct seq as [|x xs] eqn:E; [congruence|].
  rewrite <- E. unfold py_index.
  assert (Hlt : r mod length seq < length seq)
    by (apply Nat.mod_upper_bound; rewrite E; discriminate).
  destruct (nth_error seq (r mod length seq)) as [s|] eqn:Hn.
  - exists s. split; [reflexivity | eapply nth_error_In; exact Hn].
  - apply nth_error_None in Hn. lia.
Qed.

(** The [responses] dict is always built; its four entries. *)
Lemma build_responses_ok (fmt_pct1 fmt_2f : Q -> string) (ta : TradeAnalysisResult) :
  exists rs, build_responses fmt_pct1 fmt_2f ta = Ok rs /\
    r_win_rate rs = win_rate_templates fmt_pct1 ta /\
    r_improvement rs = improvement_templates ta /\
    r_strengths rs = strengths_templates ta /\
    exists focus, r_default rs =
      [ "Looking at your trading data with a win rate of " ++ fmt_pct1 (win_rate ta) ++
        " and average P&L of $" ++ fmt_2f (avg_profit_loss ta) ++ ", " ++
        "I recommend focusing on: " ++ py_join ", " (firstn 2 (suggestions ta)) ++ ". " ++
        "Would you like more specific advice on a particular aspect of your trading?";
        "Based on your trading history, I see both strengths and areas for improvement. " ++
        "Your win rate is " ++ fmt_pct1 (win_rate ta) ++ ", and I'd suggest focusing on " ++
        focus ++ ". " ++
        "What specific aspect of your trading would you like to discuss?" ].
Proof.
  unfold build_responses, default_templates.
  destruct (suggestions ta) as [|s0 ss] eqn:Hs; cbn [bind py_index nth_error];
    (eexists; split; [reflexivity|]); cbn [r_win_rate r_improvement r_strengths r_default];
    repeat split; eexists; rewrite ?Hs; reflexivity.
Qed.

Lemma responses_at_nonempty (fmt_pct1 fmt_2f : Q -> string) (ta : TradeAnalysisResult)
    (rs : responses) (c : category) :
  build_responses fmt_pct1 fmt_2f ta = Ok rs -> responses_at rs c <> [].
Proof.
  intros H. destruct (build_responses_ok fmt_pct1 fmt_2f ta)
    as (rs' & H' & Hw & Hi & Hs & focus & Hd).
  rewrite H in H'. injection H' as <-.
  destruct c; cbn [responses_at]; [rewrite Hw | rewrite Hi | rewrite Hs | rewrite Hd];
    discriminate.
Qed.

Lemma generate_in_category (fmt_pct1 fmt_2f : Q -> string) (m : string)
    (ta : TradeAnalysisResult) (r : nat) :
  exists rs s, build_responses fmt_pct1 fmt_2f ta = Ok rs /\
    generate_coach_response fmt_pct1 fmt_2f m ta r = Ok s /\
    In s (responses_at rs (classify m)).
Proof.
  destruct (build_responses_ok fmt_pct1 fmt_2f ta) as (rs & Hb & _).
  destruct (random_choice_in (responses_at rs (classify m)) r
              (responses_at_nonempty _ _ _ _ (classify m) Hb)) as (s & Hc & Hin).
  exists rs, s. unfold generate_coach_response. rewrite Hb. cbn [bind].
  split; [reflexivity|]. split; assumption.
Qed.

(* ------------------------------------------------------------------ *)
(** ** Claims on [generate_coach_response] *)

(** C4: the category is the first keyword set (win rate, improvement,
    strengths) with a member in the lower-cased message, else default; the
    reply is one of the selected category's templates; for the message
    "What's my win rate?" it is a win-rate template and no default one, for
    every analysis. *)
Theorem coach_response_category (fmt_pct1 fmt_2f : Q -> string) :
  (forall m : string,
     let l := py_lower m in
     (any_in kw_win_rate l = true -> classify m = Cat_win_rate) /\
     (any_in kw_win_rate l = false -> any_in kw_improvement l = true ->
      classify m = Cat_improvement) /\
     (any_in kw_win_rate l = false -> any_in kw_improvement l = false ->
      any_in kw_strengths l = true -> classify m = Cat_strengths) /\
     (any_in kw_win_rate l = false -> any_in kw_improvement l = false ->
      any_in kw_strengths l = false -> classify m = Cat_default)) /\
  (forall m ta r, exists rs s, build_responses fmt_pct1 fmt_2f ta = Ok rs /\
     generate_coach_response fmt_pct1 fmt_2f m ta r = Ok s /\
     In s (responses_at rs (classify m))) /\
  (forall ta r, exists rs s, build_responses fmt_pct1 fmt_2f ta = Ok rs /\
     generate_coach_response fmt_pct1 fmt_2f "What's my win rate?" ta r = Ok s /\
     In s (win_rate_templates fmt_pct1 ta) /\ ~ In s (r_default rs)).
Proof.
  split; [|split].
  - intros m l. unfold classify. fold l.
    repeat split; intros; repeat match goal with H : _ = _ |- _ => rewrite H; clear H end;
      reflexivity.
  - intros m ta r. apply generate_in_category.
  - intros ta r.
    destruct (generate_in_category fmt_pct1 fmt_2f "What's my win rate?" ta r)
      as (rs & s & Hb & Hg & Hin).
    exists rs, s. split; [exact Hb|]. split; [exact Hg|].
    destruct (build_responses_ok fmt_pct1 fmt_2f ta) as (rs' & Hb' & Hw & _ & _ & focus & Hd).
    rewrite Hb in Hb'. injection Hb' as <-.
    change (classify "What's my win rate?") with Cat_win_rate in Hin.
    cbn [responses_at] in Hin. rewrite Hw in Hin.
    split; [exact Hin|]. rewrite Hd.
    unfold win_rate_templates in Hin. cbn [In] in Hin.
    intros Hd'. cbn [In] in Hd'.
    destruct Hin as [<-|[<-|[]]]; destruct Hd' as [H|[H|[]]]; simpl in H; discriminate H.
Qed.

Lemma coach_response_category_witness :
  classify "How do I get better at exits?" = Cat_improvement.
Proof.
  apply (proj1 (proj2 (proj1 (coach_response_category (fun _ => "") (fun _ => ""))
                        "How do I get better at exits?"))); reflexivity.
Defined.

(** C5: [generate_coach_response] never raises, for every message and every
    analysis; with empty strengths and suggestions the joined lists render as
    empty strings. *)
Theorem coach_response_total :
  (forall (fmt_pct1 fmt_2f : Q -> string) (m : string) (ta : TradeAnalysisResult) (r : nat),
     exists s, generate_coach_response fmt_pct1 fmt_2f m ta r = Ok s) /\
  (forall ta : TradeAnalysisResult, strengths ta = [] -> suggestions ta = [] ->
     strengths_templates ta =
       [ "Your strengths as a trader include: . Continue to build on these while addressing your areas for improvement.";
         "You're doing well with . These are solid foundations to build upon. Consider focusing next on your risk management approach." ] /\
     improvement_templates ta =
       [ "To improve your trading results, I recommend focusing on these key areas: . Keep a detailed trading journal and review it weekly to identify patterns.";
         "The path to improvement starts with consistency and discipline. Based on your trades, I suggest working on: . Consider setting specific, measurable goals for each trading session." ]).
Proof.
  split.
  - intros fmt_pct1 fmt_2f m ta r.
    destruct (generate_in_category fmt_pct1 fmt_2f m ta r) as (rs & s & _ & Hg & _).
    exists s; exact Hg.
  - intros ta Hst Hsu. unfold strengths_templates, improvement_templates.
    rewrite Hst, Hsu. split; reflexivity.
Qed.

Lemma coach_response_total_witness :
  strengths_templates (mk_result 0%Q 0%Q [] [] [] []) =
    [ "Your strengths as a trader include: . Continue to build on these while addressing your areas for improvement.";
      "You're doing well with . These are solid foundations to build upon. Consider focusing next on your risk management approach." ].
Proof.
  apply (proj2 coach_response_total); reflexivity.
Defined.

(* ------------------------------------------------------------------ *)
(** ** Lemmas on the endpoints *)

Lemma find_rev_some {A} (f : A -> bool) (l : list A) (x : A) :
  find f (rev l) = Some x ->
  exists pre post, l = (pre ++ x :: post)%list /\ f x = true /\
                   Forall (fun y => f y = false) post.
Proof.
  induction l as [|a l IH] using rev_ind; [discriminate|].
  rewrite rev_app_distr. cbn [rev app find]. destruct (f a) eqn:Ha.
  - intros H; injection H as <-. exists l, []. split; [reflexivity|]. auto.
  - intros H. destruct (IH H) as (pre & post & -> & Hx & Hp).
    exists pre, (post ++ [a])%list. split; [rewrite <- app_assoc; reflexivity|].
    split; [exact Hx|]. apply Forall_app; auto.
Qed.

Lemma find_rev_none {A} (f : A -> bool) (l : list A) :
  find f (rev l) = None -> Forall (fun y => f y = false) l.
Proof.
  induction l as [|a l IH] using rev_ind; [constructor|].
  rewrite rev_app_distr. cbn [rev app find]. destruct (f a) eqn:Ha; [discriminate|].
  intros H. apply Forall_app; auto.
Qed.

(* ------------------------------------------------------------------ *)
(** ** Claims on the endpoints *)

(** C9: when either Supabase credential is absent (or empty) in the
    environment, client construction raises HTTP 500 "Missing Supabase
    credentials", and both endpoints answer with it before any fetch. *)
Theorem supabase_credentials_required (env : environ) :
  opt_str_truthy (env "SUPABASE_URL") = false \/
  opt_str_truthy (env "SUPABASE_SERVICE_KEY") = false ->
  get_supabase_client env = HErr 500%Z "Missing Supabase credentials" /\
  (forall (db : store) (uid : string),
     get_trade_analysis_endpoint env db uid
     = (HErr 500%Z "Missing Supabase credentials", [])) /\
  (forall (fmt_pct1 fmt_2f : Q -> string) (r : nat) (db : store) (req : ChatRequest),
     chat_endpoint fmt_pct1 fmt_2f r env db req
     = (HErr 500%Z "Missing Supabase credentials", [])).
Proof.
  intros H.
  assert (Hc : get_supabase_client env = HErr 500%Z "Missing Supabase credentials").
  { unfold get_supabase_client.
    destruct H as [H|H]; rewrite H; [reflexivity | rewrite orb_true_r; reflexivity]. }
  split; [exact Hc|]. split.
  - intros db uid. unfold get_trade_analysis_endpoint. rewrite Hc. reflexivity.
  - intros fmt_pct1 fmt_2f r db req. unfold chat_endpoint. rewrite Hc. reflexivity.
Qed.

Lemma supabase_credentials_required_witness :
  get_supabase_client (fun v => if String.eqb v "SUPABASE_URL" then Some "https://x" else None)
  = HErr 500%Z "Missing Supabase credentials".
Proof.
  apply (supabase_credentials_required
           (fun v => if String.eqb v "SUPABASE_URL" then Some "https://x" else None)).
  right; reflexivity.
Defined.

(** C10: [chat] answers the content of the last message with role "user";
    with no such message it returns "I didn't receive a message to respond
    to." with no fetch, analysis or coach step (as it also does when that
    content is empty); otherwise it fetches, analyzes and replies with the
    coach response to that content. *)
Theorem chat_last_user_message (fmt_pct1 fmt_2f : Q -> string) (r : nat) (db : store)
    (req : ChatRequest) (c : client) :
  (last_user_message (messages req) = None ->
     Forall (fun msg => role msg <> "user") (messages req) /\
     chat fmt_pct1 fmt_2f r db req c = (HOk (mk_chat_reply msg_no_message None), [])) /\
  (forall m, last_user_message (messages req) = Some m ->
     (exists pre msg post, messages req = (pre ++ msg :: post)%list /\
        role msg = "user" /\ content msg = m /\
        Forall (fun y => role y <> "user") post) /\
     (m = "" -> chat fmt_pct1 fmt_2f r db req c
                = (HOk (mk_chat_reply msg_no_message None), [])) /\
     (m <> "" -> forall trades a,
        execute_query db (user_id req) = Ok trades -> analyze_trades trades = Ok a ->
        exists s, generate_coach_response fmt_pct1 fmt_2f m a r = Ok s /\
          chat fmt_pct1 fmt_2f r db req c
          = (HOk (mk_chat_reply s (Some a)),
             [EvFetch (client_url c) (user_id req); EvAnalyze; EvCoach]))).
Proof.
  split.
  - intros H. split.
    + unfold last_user_message in H.
      destruct (find _ (rev (messages req))) eqn:Hf; [discriminate|].
      apply find_rev_none in Hf. eapply Forall_impl; [|exact Hf].
      intros y Hy. apply String.eqb_neq. exact Hy.
    + unfold chat. rewrite H. reflexivity.
  - intros m H. split; [|split].
    + unfold last_user_message in H.
      destruct (find _ (rev (messages req))) as [msg|] eqn:Hf; [|discriminate].
      injection H as <-.
      destruct (find_rev_some _ _ _ Hf) as (pre & post & Hl & Hx & Hp).
      exists pre, msg, post. split; [exact Hl|]. split; [apply String.eqb_eq; exact Hx|].
      split; [reflexivity|]. eapply Forall_impl; [|exact Hp].
      intros y Hy. apply String.eqb_neq. exact Hy.
    + intros ->. unfold chat. rewrite H. reflexivity.
    + intros Hne trades a Hq Ha.
      destruct (generate_in_category fmt_pct1 fmt_2f m a r) as (rs & s & _ & Hg & _).
      exists s. split; [exact Hg|].
      unfold chat. rewrite H.
      destruct m as [|ch m']; [congruence|]. cbn [str_truthy negb].
      rewrite Hq, Ha, Hg. reflexivity.
Qed.

Lemma chat_last_user_message_witness :
  chat (fun _ => "") (fun _ => "") 0 (fun _ => FetchOk [])
       (mk_chat_request [mk_message "assistant" "Hello"] "u1") (mk_client "https://x" "k")
  = (HOk (mk_chat_reply msg_no_message None), []).
Proof.
  apply (chat_last_user_message (fun _ => "") (fun _ => "") 0 (fun _ => FetchOk [])
           (mk_chat_request [mk_message "assistant" "Hello"] "u1") (mk_client "https://x" "k")).
  reflexivity.
Defined.

(* ------------------------------------------------------------------ *)
(** ** Further properties of the code *)

Lemma prefixb_app_iff (p s : string) :
  prefixb p s = true <-> exists rest, s = p ++ rest.
Proof.
  revert s; induction p as [|a p IH]; intros s; simpl.
  - split; [intros _; exists s; reflexivity | reflexivity].
  - destruct s as [|b s].
    + split; [discriminate | intros [rest H]; discriminate].
    + rewrite andb_true_iff, Ascii.eqb_eq, IH. split.
      * intros [-> [rest ->]]. exists rest. reflexivity.
      * intros [rest H]. injection H as -> ->. split; [reflexivity | exists rest; reflexivity].
Qed.

(** X1: [get_user_id] accepts exactly an [Authorization] header starting
    with "Bearer ", and even then returns no user id ([None]); any other
    header, or none, raises HTTP 401. *)
Theorem get_user_id_spec (auth_header : option string) :
  (get_user_id auth_header = HOk None /\
   exists token, auth_header = Some ("Bearer " ++ token)) \/
  (get_user_id auth_header = HErr 401%Z "Invalid authentication credentials" /\
   ~ exists token, auth_header = Some ("Bearer " ++ token)).
Proof.
  destruct auth_header as [h|].
  - unfold get_user_id. destruct (prefixb "Bearer " h) eqn:Hp.
    + left. destruct (proj1 (prefixb_app_iff _ _) Hp) as [token ->].
      split; [reflexivity | exists token; reflexivity].
    + right. rewrite orb_true_r. split; [reflexivity|].
      intros [token Ht]. assert (Hh : h = "Bearer " ++ token) by congruence. subst h.
      assert (prefixb "Bearer " ("Bearer " ++ token) = true)
        by (apply prefixb_app_iff; exists token; reflexivity).
      rewrite H in Hp. discriminate.
  - right. split; [reflexivity|]. intros [token Ht]; discriminate.
Qed.

Lemma py_filter_length {A} (p : A -> res bool) (xs ys : list A) :
  py_filter p xs = Ok ys -> length ys <= length xs.
Proof.
  revert ys; induction xs as [|x xs IH]; intros ys; simpl.
  - intros H; injection H as <-. simpl; lia.
  - destruct (p x) as [b|e]; cbn [bind]; [|discriminate].
    destruct (py_filter p xs) as [zs|e]; cbn [bind]; [|discriminate].
    intros H; injection H as <-. specialize (IH zs eq_refl).
    destruct b; simpl; lia.
Qed.

(** X2: every win rate [analyze_trades] returns lies in [0, 1]. *)
Theorem analyze_win_rate_bounds (ts : list trade) (r : TradeAnalysisResult) :
  analyze_trades ts = Ok r -> (0 <= win_rate r <= 1)%Q.
Proof.
  destruct ts as [|t ts].
  - intros H; injection H as <-. cbn. split; discriminate.
  - intros Hr. destruct (analyze_cons_shape _ _ _ Hr) as (p & tot & Hp & _ & Hw & _).
    apply py_filter_length in Hp. rewrite Hw.
    assert (Hpos : (0 < py_len (t :: ts))%Q)
      by (unfold py_len, Qlt; simpl; lia).
    split.
    + apply Qle_shift_div_l; [exact Hpos|]. unfold py_len, Qle; simpl; lia.
    + apply Qle_shift_div_r; [exact Hpos|]. unfold py_len, Qle in *; simpl in *; lia.
Qed.


(** X3: on a non-empty collection, the win-rate rule adds "Above 50% win
    rate" to strengths exactly when win rate > 0.5, and otherwise both
    "Below 50% win rate" to weaknesses and its suggestion; likewise the
    average-P&L rule with its positive strength or its negative weakness and
    suggestion. Each pair is exclusive. *)
Theorem analyze_binary_rules (ts : list trade) (r : TradeAnalysisResult) :
  ts <> [] -> analyze_trades ts = Ok r ->
  (In msg_above (strengths r) <-> Qgtb (win_rate r) (1 # 2) = true) /\
  (In msg_below (weaknesses r) <-> Qgtb (win_rate r) (1 # 2) = false) /\
  (In msg_focus_win (suggestions r) <-> Qgtb (win_rate r) (1 # 2) = false) /\
  (In msg_pos_pnl (strengths r) <-> Qgtb (avg_profit_loss r) 0 = true) /\
  (In msg_neg_pnl (weaknesses r) <-> Qgtb (avg_profit_loss r) 0 = false) /\
  (In msg_work_avg (suggestions r) <-> Qgtb (avg_profit_loss r) 0 = false).
Proof.
  destruct ts as [|t ts]; [congruence|]. intros _ Hr.
  destruct (analyze_cons_shape _ _ _ Hr) as (p & tot & _ & _ & _ & _ & _ & Hst & Hwe & Hsu).
  rewrite Hst, Hwe, Hsu.
  repeat match goal with |- _ /\ _ => split end; settle_rule_in.
Qed.

Lemma analyze_binary_rules_witness :
  exists r, analyze_trades [tr (PnlNum 5) None None; tr (PnlNum (-7)) None None] = Ok r /\
    In msg_below (weaknesses r) /\ In msg_neg_pnl (weaknesses r) /\
    ~ In msg_above (strengths r).
Proof.
  eexists. split; [vm_compute; reflexivity|].
  destruct (analyze_binary_rules [tr (PnlNum 5) None None; tr (PnlNum (-7)) None None] _
              ltac:(discriminate) ltac:(vm_compute; reflexivity))
    as (Ha & Hb & _ & _ & Hn & _).
  split; [apply Hb; reflexivity|]. split; [apply Hn; reflexivity|].
  rewrite Ha. discriminate.
Defined.



Lemma py_filter_null_raise (ts : list trade) :
  forallb pnl_not_null ts = false ->
  exists e, py_filter (fun t => py_gt_zero (get_pnl t)) ts = Raise e.
Proof.
  induction ts as [|t ts IH]; simpl; [discriminate|].
  destruct t as [[| |q] ty n]; cbn [pnl_not_null pnl get_pnl py_gt_zero andb bind].
  - intros H. destruct (IH H) as [e ->]. exists e; reflexivity.
  - intros _. eexists; reflexivity.
  - intros H. destruct (IH H) as [e ->]. exists e; reflexivity.
Qed.

(** X5: on a non-empty collection, [analyze_trades] succeeds exactly when no
    row has a [NULL] [pnl]; otherwise it raises a [TypeError]. *)
Theorem analyze_succeeds_iff_no_null (ts : list trade) :
  ts <> [] ->
  ((exists r, analyze_trades ts = Ok r) <-> forallb pnl_not_null ts = true) /\
  (forallb pnl_not_null ts = false -> exists m, analyze_trades ts = Raise (TypeError m)).
Proof.
  destruct ts as [|t ts]; [congruence|]. intros _.
  assert (Hnull : forallb pnl_not_null (t :: ts) = false ->
                  exists e, analyze_trades (t :: ts) = Raise e).
  { intros H. destruct (py_filter_null_raise _ H) as [e He].
    exists e. unfold analyze_trades. rewrite He. reflexivity. }
  split; [split|].
  - intros [r Hr]. destruct (forallb pnl_not_null (t :: ts)) eqn:E; [reflexivity|].
    destruct (Hnull eq_refl) as [e He]. congruence.
  - apply analyze_cons_total.
  - intros H. destruct (Hnull H) as [e He].
    destruct (analyze_raise_type_error _ _ He) as [m ->]. exists m; exact He.
Qed.

Lemma analyze_succeeds_iff_no_null_witness :
  exists m, analyze_trades [tr (PnlNum 3) None None; tr PnlNull None None] = Raise (TypeError m).
Proof.
  apply (analyze_succeeds_iff_no_null [tr (PnlNum 3) None None; tr PnlNull None None]);
    [discriminate | reflexivity].
Defined.

Lemma dedup_In (xs : list string) (x : string) : In x (dedup xs) <-> In x xs.
Proof.
  induction xs as [|y xs IH]; simpl; [tauto|].
  rewrite filter_In, IH.
  destruct (String.eqb x y) eqn:E.
  - apply String.eqb_eq in E. subst. tauto.
  - apply String.eqb_neq in E. cbn [negb]. split.
    + intros [H|[H _]]; [left; exact H | right; exact H].
    + intros [H|H]; [left; exact H | right; split; [exact H | reflexivity]].
Qed.

Lemma dedup_NoDup (xs : list string) : NoDup (dedup xs).
Proof.
  induction xs as [|y xs IH]; simpl; constructor.
  - rewrite filter_In. intros [_ H]. rewrite String.eqb_refl in H. discriminate.
  - apply NoDup_filter. exact IH.
Qed.

(** X6: the strategies of a result have no duplicates, and are exactly the
    stripped [trade_type] values of the rows whose [trade_type] is a
    non-empty string. *)
Theorem analyze_strategies_distinct (ts : list trade) (r : TradeAnalysisResult) :
  analyze_trades ts = Ok r ->
  NoDup (strategies r) /\
  (forall x, In x (strategies r) <->
     exists t, In t ts /\ trade_type_truthy t = true /\ x = py_strip (get_trade_type t)).
Proof.
  destruct ts as [|t0 ts].
  - intros H; injection H as <-. cbn. split; [constructor|].
    intros x; split; [tauto | intros (t & [] & _)].
  - intros Hr.
    destruct (analyze_cons_shape _ _ _ Hr) as (p & tot & _ & _ & _ & _ & Hs & _).
    rewrite Hs. unfold strategies_of. split; [apply dedup_NoDup|].
    intros x. rewrite dedup_In, in_map_iff. split.
    + intros (t & <- & Ht). apply filter_In in Ht as [Hin Htr].
      exists t. split; [exact Hin|]. split; [exact Htr | reflexivity].
    + intros (t & Hin & Htr & ->). exists t. split; [reflexivity|].
      apply filter_In. split; assumption.
Qed.

Lemma prefixb_app_l (p s1 s2 : string) :
  prefixb p s1 = true -> prefixb p (s1 ++ s2) = true.
Proof.
  revert s1; induction p as [|a p IH]; intros s1; [reflexivity|].
  destruct s1 as [|b s1]; simpl; [discriminate|].
  rewrite !andb_true_iff. intros [Hab H]. split; [exact Hab | apply IH; exact H].
Qed.

(** A pattern with no space cannot match across a space. *)
Lemma prefixb_space_l (p s1 s2 : string) :
  py_in " " p = false -> prefixb p (s1 ++ String " " s2) = true -> prefixb p s1 = true.
Proof.
  revert s1; induction p as [|a p IH]; intros s1 Hsp; [reflexivity|].
  cbn [py_in prefixb] in Hsp. rewrite andb_true_r in Hsp.
  apply orb_false_iff in Hsp as [Ha Hp].
  destruct s1 as [|b s1]; simpl.
  - rewrite Ascii.eqb_sym, Ha. discriminate.
  - rewrite !andb_true_iff. intros [Hab H]. split; [exact Hab | exact (IH s1 Hp H)].
Qed.

Lemma py_in_empty (p : string) : p <> "" -> py_in p "" = false.
Proof. destruct p; [congruence | reflexivity]. Qed.

Lemma py_in_app_space (p s1 s2 : string) :
  p <> "" -> py_in " " p = false ->
  py_in p (s1 ++ String " " s2) = py_in p s1 || py_in p s2.
Proof.
  intros Hne Hsp. induction s1 as [|c s1 IH].
  - cbn [append]. rewrite (py_in_empty _ Hne). cbn [orb].
    destruct p as [|a p]; [congruence|]. simpl.
    cbn [py_in prefixb] in Hsp. rewrite andb_true_r in Hsp.
    apply orb_false_iff in Hsp as [Ha _]. rewrite Ascii.eqb_sym, Ha. reflexivity.
  - change (String c s1 ++ String " " s2) with (String c (s1 ++ String " " s2)).
    cbn [py_in]. fold (py_in p (s1 ++ String " " s2)). rewrite IH.
    change (String c (s1 ++ String " " s2)) with (String c s1 ++ String " " s2).
    assert (Hpre : prefixb p (String c s1 ++ String " " s2) = prefixb p (String c s1)).
    { destruct (prefixb p (String c s1)) eqn:E.
      - apply prefixb_app_l. exact E.
      - destruct (prefixb p (String c s1 ++ String " " s2)) eqn:E2; [|reflexivity].
        rewrite (prefixb_space_l _ _ _ Hsp E2) in E. discriminate. }
    rewrite Hpre. fold (py_in p s1). rewrite orb_assoc. reflexivity.
Qed.

Lemma py_lower_app (a b : string) : py_lower (a ++ b) = py_lower a ++ py_lower b.
Proof. induction a as [|c a IH]; simpl; [reflexivity | rewrite IH; reflexivity]. Qed.

Lemma py_in_lower_join (p : string) (ns : list string) :
  p <> "" -> py_in " " p = false ->
  py_in p (py_lower (py_join " " ns)) = existsb (fun n => py_in p (py_lower n)) ns.
Proof.
  intros Hne Hsp. unfold py_join.
  induction ns as [|n ns IH].
  - simpl. apply py_in_empty; exact Hne.
  - destruct ns as [|m ns].
    + simpl. rewrite orb_false_r. reflexivity.
    + change (String.concat " " (n :: m :: ns))
        with (n ++ String " " (String.concat " " (m :: ns))).
      rewrite py_lower_app. cbn [py_lower].
      change (lower_char " ") with " "%char.
      rewrite (py_in_app_space _ _ _ Hne Hsp), IH. reflexivity.
Qed.

(** X7: joining the notes with spaces never creates or hides a keyword
    match: the emotional rule (resp. the planning rule) fires on the joined
    text exactly when some single non-empty note contains "emotion", "fear"
    or "greed" (resp. "plan"), case-insensitively. *)
Theorem notes_rules_per_note (ts : list trade) :
  let ns := map get_notes (filter notes_truthy ts) in
  emotion_hit (all_notes_of ts) = existsb emotion_hit ns /\
  plan_hit (all_notes_of ts) = existsb plan_hit ns.
Proof.
  intros ns. unfold emotion_hit, plan_hit, all_notes_of. fold ns.
  rewrite !py_in_lower_join by (discriminate || reflexivity).
  split; [|reflexivity].
  induction ns as [|n ns IH]; [reflexivity|]. cbn [existsb].
  rewrite <- IH.
  destruct (py_in "emotion" (py_lower n)), (py_in "fear" (py_lower n)),
    (py_in "greed" (py_lower n)); cbn [orb];
    destruct (existsb (fun n => py_in "emotion" (py_lower n)) ns),
      (existsb (fun n => py_in "fear" (py_lower n)) ns),
      (existsb (fun n => py_in "greed" (py_lower n)) ns); reflexivity.
Qed.





(** X10: the coach reply reads only the win rate, the average P&L, the
    strengths and the first two suggestions of the analysis: it never
    depends on strategies, weaknesses or later suggestions. *)
Theorem coach_response_reads (fmt_pct1 fmt_2f : Q -> string) (m : string) (r : nat)
    (ta ta' : TradeAnalysisResult) :
  win_rate ta = win_rate ta' -> avg_profit_loss ta = avg_profit_loss ta' ->
  strengths ta = strengths ta' -> firstn 2 (suggestions ta) = firstn 2 (suggestions ta') ->
  generate_coach_response fmt_pct1 fmt_2f m ta r = generate_coach_response fmt_pct1 fmt_2f m ta' r.
Proof.
  intros Hw Ha Hs Hf.
  unfold generate_coach_response, build_responses, win_rate_templates,
    improvement_templates, strengths_templates, default_templates.
  rewrite Hw, Ha, Hs, Hf.
  destruct (suggestions ta) as [|a l], (suggestions ta') as [|a' l'];
    try discriminate; [reflexivity|].
  injection Hf as -> _. reflexivity.
Qed.

Lemma coach_response_reads_witness :
  generate_coach_response (fun _ => "") (fun _ => "") "hello"
    (mk_result (1 # 2) 3 ["scalp"] [] [msg_below] [msg_focus_win; msg_explore; msg_discipline]) 1
  = generate_coach_response (fun _ => "") (fun _ => "") "hello"
    (mk_result (1 # 2) 3 [] [] [] [msg_focus_win; msg_explore]) 1.
Proof. apply coach_response_reads; reflexivity. Defined.

(** X11: every template of the selected category is returned for some
    value of the random source. *)
Theorem coach_response_reachable (fmt_pct1 fmt_2f : Q -> string) (m : string)
    (ta : TradeAnalysisResult) (rs : responses) (s : string) :
  build_responses fmt_pct1 fmt_2f ta = Ok rs -> In s (responses_at rs (classify m)) ->
  exists r, generate_coach_response fmt_pct1 fmt_2f m ta r = Ok s.
Proof.
  intros Hb Hin. apply In_nth_error in Hin as [i Hi].
  assert (Hlt : i < length (responses_at rs (classify m)))
    by (apply nth_error_Some; congruence).
  exists i. unfold generate_coach_response. rewrite Hb. cbn [bind].
  unfold random_choice. destruct (responses_at rs (classify m)) as [|x xs] eqn:E;
    [simpl in Hlt; lia|].
  unfold py_index. rewrite Nat.mod_small by exact Hlt. rewrite Hi. reflexivity.
Qed.

Lemma coach_response_reachable_witness :
  exists r, generate_coach_response (fun _ => "") (fun _ => "") "win rate?" empty_result r
    = Ok ("Based on your trading history, you're winning  of the time. " ++
          "Remember that even the best traders don't win every trade. " ++
          "The key is to ensure your winners are bigger than your losers.").
Proof.
  apply (coach_response_reachable (fun _ => "") (fun _ => "") "win rate?" empty_result
           (mk_responses (win_rate_templates (fun _ => "") empty_result)
              (improvement_templates empty_result) (strengths_templates empty_result)
              (match default_templates (fun _ => "") (fun _ => "") empty_result with
               | Ok l => l | Raise _ => [] end)));
    [reflexivity | right; left; reflexivity].
Defined.



Lemma analyze_win_rate_bounds_witness :
  (0 <= win_rate (mk_result (2 # 3) (25 # 3) [] [msg_above; msg_pos_pnl] [] [msg_explore]) <= 1)%Q.
Proof.
  apply (analyze_win_rate_bounds [tr (PnlNum 10) None None; tr (PnlNum (-5)) None None;
                                  tr (PnlNum 20) None None]).
  vm_compute. reflexivity.
Defined.

Lemma analyze_strategies_distinct_witness :
  NoDup (strategies (mk_result (0 # 3) (0 # 3) ["scalp"] [] [msg_below; msg_neg_pnl]
                       [msg_focus_win; msg_work_avg; msg_explore])).
Proof.
  apply (analyze_strategies_distinct [tr (PnlNum 0) (Some "scalp") None;
                                      tr (PnlNum 0) (Some " scalp ") None;
                                      tr (PnlMissing) (Some "") None]).
  vm_compute. reflexivity.
Defined.
